(** * optics-deploy: the Celo mainnet configuration module

    Shallow embedding of [typescript/optics-deploy/config/mainnets/celo.ts].

    The file is a TypeScript module whose top-level statements run once,
    when the module is first imported:

    - [dotenv.config()] adds the entries of the [.env] file to
      [process.env];
    - [CELO_RPC] is read and the module throws when it is falsy;
    - the exports [chainJson], [chain], [config] and [bridgeConfig] are
      initialised, in that order.

    The module body is embedded as a program in a state-and-exception
    monad over the process environment and the export bindings. *)

From Stdlib Require Import ZArith List String Ascii Bool Lia.
From stdpp Require Import base option gmap strings.

Local Open Scope Z_scope.
Local Open Scope string_scope.

(** ** JavaScript values the module manipulates *)

Module Js.

(** [new Error(message)]. *)
Inductive exn : Type :=
| Error (message : string).

(** How the evaluation of a statement ends. *)
Inductive outcome (A : Type) : Type :=
| Normal (a : A)
| Throw (e : exn).

Arguments Normal {A} a.
Arguments Throw {A} e.

(** Truthiness of a value of type [string | undefined]: [undefined] and
    the empty string are falsy, every other string is truthy. *)
Definition truthy (v : option string) : bool :=
  match v with
  | None => false
  | Some s => negb (String.eqb s EmptyString)
  end.

Definition is_normal {A : Type} (o : outcome A) : bool :=
  match o with
  | Normal _ => true
  | Throw _ => false
  end.

Definition is_throw {A : Type} (o : outcome A) : bool :=
  negb (is_normal o).

End Js.

Import Js.

(** ** Data model *)

(** [process.env]: a map from variable names to strings; an unset
    variable reads as [undefined]. *)
Abbreviation Env := (gmap string string).

(** [ChainJson], as the object literal of [chainJson] populates it. *)
Record ChainJson : Type := mkChainJson {
  name : string;
  rpc : string;
  deployerKey : option string;
  domain : Z;
}.

(** [CoreConfig], as the object literal of [config] populates it.  The
    [governor] entry is commented out in the source, so it is absent. *)
Record CoreConfig : Type := mkCoreConfig {
  environment : string;
  updater : string;
  recoveryTimelock : Z;
  recoveryManager : string;
  optimisticSeconds : Z;
  watchers : list string;
  governor : option string;
  processGas : Z;
  reserveGas : Z;
}.

(** [BridgeConfig]: a plain object, used as a finite map of entries. *)
Abbreviation BridgeConfig := (gmap string string).

(** ** The constants of the module *)

Definition config : CoreConfig :=
  {| environment := "prod";
     updater := "0xDB2091535eb0Ee447Ce170DDC25204FEA822dd81";
     recoveryTimelock := 60 * 60 * 24;
     recoveryManager := "0x3D9330014952Bf0A3863FEB7a657bfFA5C9D40B9";
     optimisticSeconds := 60 * 60 * 3;
     watchers := ["0xeE42B7757798cf495CDaA8eDb0CC237F07c60C81"];
     governor := None;
     processGas := 850000;
     reserveGas := 15000 |}.

Definition bridgeConfig : BridgeConfig := ∅.

Definition celo_domain : Z := 0x63656c6f.

Definition missing_rpc : exn := Error "Missing RPC URI".

(** The object literal of [chainJson], given the two values it reads. *)
Definition chainJson_literal (rpc : string) (key : option string)
  : ChainJson :=
  {| name := "celo"; rpc := rpc; deployerKey := key; domain := celo_domain |}.

(** ** Evaluation of the module body *)

Section Module_body.

(** [Chain] and [toChain] are imported from [../../src/chain]; the
    module only calls [toChain] on [chainJson] and exports the result.
    The call may return a chain or throw. *)
Variable Chain : Type.
Variable toChain : ChainJson -> outcome Chain.

(** The export bindings of the module; a binding is [None] until its
    [export const] statement has run. *)
Record Exports : Type := mkExports {
  exp_chainJson : option ChainJson;
  exp_chain : option Chain;
  exp_config : option CoreConfig;
  exp_bridgeConfig : option BridgeConfig;
}.

Definition no_exports : Exports :=
  {| exp_chainJson := None; exp_chain := None;
     exp_config := None; exp_bridgeConfig := None |}.

Record State : Type := mkState {
  process_env : Env;
  exports : Exports;
}.

(** State and exception monad: a throw keeps the state reached so far. *)
Definition M (A : Type) : Type := State -> outcome A * State.

Definition ret {A : Type} (a : A) : M A := fun st => (Normal a, st).

Definition bind {A B : Type} (m : M A) (k : A -> M B) : M B :=
  fun st =>
    match m st with
    | (Normal a, st') => k a st'
    | (Throw e, st') => (Throw e, st')
    end.

Definition throw {A : Type} (e : exn) : M A := fun st => (Throw e, st).

Definition lift {A : Type} (o : outcome A) : M A := fun st => (o, st).

Notation "x <- m ;; k" := (bind m (fun x => k))
  (at level 100, m at next level, right associativity).
Notation "m ;;; k" := (bind m (fun _ => k))
  (at level 100, right associativity).

(** [process.env.X] *)
Definition getenv (x : string) : M (option string) :=
  fun st => (Normal (process_env st !! x), st).

(** [dotenv.config()]: every entry of the parsed [.env] file whose key
    is not yet set in [process.env] is added to it; keys that are
    already set keep their value.  A missing file parses to no entry,
    and the call never throws. *)
Definition dotenv_config (dotenv_file : Env) : M unit :=
  fun st =>
    (Normal tt,
     {| process_env := process_env st ∪ dotenv_file;
        exports := exports st |}).

Definition set_exports (f : Exports -> Exports) : M unit :=
  fun st =>
    (Normal tt, {| process_env := process_env st; exports := f (exports st) |}).

Definition export_chainJson (v : ChainJson) : M unit :=
  set_exports (fun e =>
    {| exp_chainJson := Some v; exp_chain := exp_chain e;
       exp_config := exp_config e; exp_bridgeConfig := exp_bridgeConfig e |}).

Definition export_chain (v : Chain) : M unit :=
  set_exports (fun e =>
    {| exp_chainJson := exp_chainJson e; exp_chain := Some v;
       exp_config := exp_config e; exp_bridgeConfig := exp_bridgeConfig e |}).

Definition export_config (v : CoreConfig) : M unit :=
  set_exports (fun e =>
    {| exp_chainJson := exp_chainJson e; exp_chain := exp_chain e;
       exp_config := Some v; exp_bridgeConfig := exp_bridgeConfig e |}).

Definition export_bridgeConfig (v : BridgeConfig) : M unit :=
  set_exports (fun e =>
    {| exp_chainJson := exp_chainJson e; exp_chain := exp_chain e;
       exp_config := exp_config e; exp_bridgeConfig := Some v |}).

(** [const rpc = process.env.CELO_RPC; if (!rpc) throw ...]: after the
    guard [rpc] is a string. *)
Definition read_rpc : M string :=
  rpc <- getenv "CELO_RPC" ;;
  match rpc with
  | Some s => if negb (truthy rpc) then throw missing_rpc else ret s
  | None => throw missing_rpc
  end.

(** [chainJson]: the guarded [rpc], then [CELO_DEPLOYER_KEY] as it
    is, set or not. *)
Definition make_chainJson : M ChainJson :=
  rpc <- read_rpc ;;
  key <- getenv "CELO_DEPLOYER_KEY" ;;
  ret (chainJson_literal rpc key).

(** Everything after [dotenv.config()]: the configuration is built from
    the environment as it then stands. *)
Definition construct : M unit :=
  chainJson <- make_chainJson ;;
  export_chainJson chainJson ;;;
  chain <- lift (toChain chainJson) ;;
  export_chain chain ;;;
  export_config config ;;;
  export_bridgeConfig bridgeConfig.

(** The whole module body. *)
Definition celo_module (dotenv_file : Env) : M unit :=
  dotenv_config dotenv_file ;;;
  construct.

Definition initial (env : Env) : State :=
  {| process_env := env; exports := no_exports |}.

(** What an importer obtains: the export bindings when the body ran to
    its end, the exception when it threw. *)
Definition import_from (body : M unit) (env : Env) : outcome Exports :=
  match body (initial env) with
  | (Normal _, st) => Normal (exports st)
  | (Throw e, _) => Throw e
  end.

(** Construction from a given key/value map. *)
Definition load (env : Env) : outcome Exports := import_from construct env.

(** Import of the module in a process whose environment is [env] and
    whose [.env] file holds [dotenv_file]. *)
Definition import_celo (dotenv_file env : Env) : outcome Exports :=
  import_from (celo_module dotenv_file) env.

End Module_body.

Arguments mkExports {Chain} _ _ _ _.
Arguments no_exports {Chain}.
Arguments exp_chainJson {Chain} _.
Arguments exp_chain {Chain} _.
Arguments exp_config {Chain} _.
Arguments exp_bridgeConfig {Chain} _.
Arguments mkState {Chain} _ _.
Arguments process_env {Chain} _.
Arguments exports {Chain} _.
Arguments initial {Chain} env.
Arguments read_rpc {Chain}.
Arguments make_chainJson {Chain}.
Arguments construct {Chain} toChain.
Arguments celo_module {Chain} toChain dotenv_file.
Arguments load {Chain} toChain env.
Arguments import_celo {Chain} toChain dotenv_file env.

(** ** The domain convention

    The comment next to [domain] says the constant is an ASCII tag
    "interpreted as an int": the bytes of the tag, most significant
    first. *)

Definition tag_to_domain (tag : string) : Z :=
  fold_left (fun acc c => acc * 256 + Z.of_nat (nat_of_ascii c))
            (list_ascii_of_string tag) 0.

(** ** Validation rules

    [celo.ts] holds no validator: [CoreConfig] and [BridgeConfig] come
    from [../../src/core/CoreDeploy] and [../../src/bridge/BridgeDeploy],
    which are not part of the sources at hand. *)

Module Validation.

(** Modelled from the spec: the error kinds of the error taxonomy
    (section 7), which the missing validator reports. *)
Inductive ErrorKind : Type :=
| MissingRequiredField
| InvalidAddress
| InvalidDuration
| DuplicateWatcher
| InvalidGasBudget.

(** Modelled from the spec: one entry of the failure report of the
    missing validator, an error kind and the field it is about. *)
Record Violation : Type := mkViolation {
  kind : ErrorKind;
  field : string;
}.

(** Modelled from the spec: the character test behind the "well-formed
    address" rule of the missing validator, a hexadecimal digit in either
    case. *)
Definition is_hex_digit (c : ascii) : bool :=
  let n := nat_of_ascii c in
  ((48 <=? n) && (n <=? 57) || (65 <=? n) && (n <=? 70)
   || (97 <=? n) && (n <=? 102))%nat.

(** Modelled from the spec: every character of the string is a
    hexadecimal digit (part of the same rule). *)
Fixpoint all_hex (s : string) : bool :=
  match s with
  | EmptyString => true
  | String c s' => is_hex_digit c && all_hex s'
  end.

(** Modelled from the spec: the "well-formed address" test of the
    missing validator.  The spec fixes no format; the addresses of
    [celo.ts] are 20-byte hexadecimal account addresses, so the test is
    [0x] followed by 40 hexadecimal digits. *)
Definition is_address (s : string) : bool :=
  match s with
  | String "0" (String "x" digits) =>
      (String.length digits =? 40)%nat && all_hex digits
  | _ => false
  end.

(** Modelled from the spec: the check of a mandatory address field of
    the missing validator ([MissingRequiredField] when absent,
    [InvalidAddress] when it fails format validation). *)
Definition check_address (f a : string) : list Violation :=
  if String.eqb a EmptyString then [mkViolation MissingRequiredField f]
  else if is_address a then []
  else [mkViolation InvalidAddress f].

(** Modelled from the spec: the duration check of the missing
    validator ([InvalidDuration] when a timelock or delay is
    negative). *)
Definition check_duration (f : string) (d : Z) : list Violation :=
  if (d <? 0)%Z then [mkViolation InvalidDuration f] else [].

(** Modelled from the spec: "the watcher set contains a repeated
    address", as the missing validator would test it. *)
Fixpoint has_duplicate (ws : list string) : bool :=
  match ws with
  | [] => false
  | w :: ws' => existsb (String.eqb w) ws' || has_duplicate ws'
  end.

(** Modelled from the spec: the watcher check of the missing validator
    (every entry is a well-formed address and the set has no
    duplicates; a repeated address is a [DuplicateWatcher]). *)
Definition check_watchers (ws : list string) : list Violation :=
  flat_map (fun w => if is_address w then []
                     else [mkViolation InvalidAddress "watchers"]) ws
  ++ (if has_duplicate ws then [mkViolation DuplicateWatcher "watchers"]
      else []).

(** Modelled from the spec: the gas check of the missing validator
    ([processGas > 0] and [reserveGas >= 0]). *)
Definition check_gas (cfg : CoreConfig) : list Violation :=
  (if (processGas cfg <=? 0)%Z then [mkViolation InvalidGasBudget "processGas"]
   else [])
  ++ (if (reserveGas cfg <? 0)%Z then [mkViolation InvalidGasBudget "reserveGas"]
      else []).

(** Modelled from the spec: the violations the missing
    CoreSecurityConfig validator (section 4.2) finds, all rules checked
    and every violation kept. *)
Definition violations (cfg : CoreConfig) : list Violation :=
  check_address "updater" (updater cfg)
  ++ check_address "recoveryManager" (recoveryManager cfg)
  ++ check_duration "recoveryTimelock" (recoveryTimelock cfg)
  ++ check_duration "optimisticSeconds" (optimisticSeconds cfg)
  ++ check_watchers (watchers cfg)
  ++ check_gas cfg.

(** Modelled from the spec: the two results of the missing validator, the
    validated configuration or the report of its violations. *)
Inductive validated : Type :=
| Valid (cfg : CoreConfig)
| Invalid (report : list Violation).

(** Modelled from the spec: the missing CoreSecurityConfig validator,
    "a validated CoreSecurityConfig, or a fail result enumerating every
    violated invariant". *)
Definition validateCoreConfig (cfg : CoreConfig) : validated :=
  match violations cfg with
  | [] => Valid cfg
  | report => Invalid report
  end.

End Validation.

Import Validation.

(** ** The imported [toChain] *)

(** Modelled from the spec: [toChain] of [../../src/chain], which turns
    [chainJson] into the chain descriptor and is missing from the
    sources.  The spec gives the descriptor the fields of [chainJson]
    (name, domain, RPC endpoint, optional deployer key), lets the
    deployer key be absent, and knows one failure of the builder, the
    missing RPC endpoint, which [celo.ts] raises itself before the call:
    so the call returns the descriptor for every [chainJson]. *)
Definition toChain_spec : ChainJson -> outcome ChainJson :=
  fun cj => Normal cj.

(** ** Sample instances of [toChain] *)

Definition toChain_ok : ChainJson -> outcome ChainJson := Normal.

Definition toChain_failing : ChainJson -> outcome ChainJson :=
  fun _ => Throw (Error "toChain failed").

(** A [toChain] that refuses a descriptor without endpoint. *)
Definition toChain_strict : ChainJson -> outcome ChainJson :=
  fun cj =>
    if String.eqb (rpc cj) EmptyString then Throw (Error "no endpoint")
    else Normal cj.

Definition forno : string := "https://forno.celo.org".

Definition celo_env : Env := {[ "CELO_RPC" := forno ]}.

(** The export bindings once every [export const] has run. *)
Definition all_exports {Chain : Type} (cj : ChainJson) (c : Chain)
  : Exports Chain :=
  mkExports (Some cj) (Some c) (Some config) (Some bridgeConfig).

(** The [chainJson] the module builds from an environment whose RPC
    endpoint is [s]. *)
Definition chainJson_in (env : Env) (s : string) : ChainJson :=
  chainJson_literal s (env !! "CELO_DEPLOYER_KEY").

(** * Properties *)

(** ** Truthiness *)

Lemma truthy_false (v : option string) :
  truthy v = false <-> v = None \/ v = Some EmptyString.
Proof.
  destruct v as [s|]; simpl.
  - rewrite negb_false_iff, String.eqb_eq. split.
    + intros ->. now right.
    + intros [H|H]; congruence.
  - split; [now left | reflexivity].
Qed.

Lemma truthy_true (v : option string) :
  truthy v = true <-> exists s, v = Some s /\ s <> EmptyString.
Proof.
  destruct v as [s|]; simpl.
  - rewrite negb_true_iff, String.eqb_neq. split.
    + intros H. now exists s.
    + intros (s' & [= <-] & H). exact H.
  - split; [discriminate | intros (s & H & _); discriminate].
Qed.

(** ** Step lemmas for the module body *)

Section Steps.

Context {Chain : Type}.
Variable toChain : ChainJson -> outcome Chain.

Implicit Types (st : State Chain) (env : Env).

Lemma read_rpc_throw st :
  truthy (process_env st !! "CELO_RPC") = false ->
  read_rpc st = (Throw missing_rpc, st).
Proof.
  intros H. unfold read_rpc, bind, getenv.
  destruct (process_env st !! "CELO_RPC") as [s|]; [|reflexivity].
  rewrite H. reflexivity.
Qed.

Lemma read_rpc_ok st s :
  process_env st !! "CELO_RPC" = Some s -> s <> EmptyString ->
  read_rpc st = (Normal s, st).
Proof.
  intros E Hs. unfold read_rpc, bind, getenv. rewrite E.
  assert (truthy (Some s) = true) as -> by (apply truthy_true; eauto).
  reflexivity.
Qed.

Lemma make_chainJson_throw st :
  truthy (process_env st !! "CELO_RPC") = false ->
  make_chainJson st = (Throw missing_rpc, st).
Proof.
  intros H. unfold make_chainJson, bind.
  rewrite (read_rpc_throw st H). reflexivity.
Qed.

Lemma make_chainJson_ok st s :
  process_env st !! "CELO_RPC" = Some s -> s <> EmptyString ->
  make_chainJson st = (Normal (chainJson_in (process_env st) s), st).
Proof.
  intros E Hs. unfold make_chainJson, bind.
  rewrite (read_rpc_ok st s E Hs). reflexivity.
Qed.

Lemma construct_throw st :
  truthy (process_env st !! "CELO_RPC") = false ->
  construct toChain st = (Throw missing_rpc, st).
Proof.
  intros H. unfold construct, bind.
  rewrite (make_chainJson_throw st H). reflexivity.
Qed.

Lemma load_throw env :
  truthy (env !! "CELO_RPC") = false ->
  load toChain env = Throw missing_rpc.
Proof.
  intros H. unfold load, import_from.
  rewrite construct_throw; [reflexivity | exact H].
Qed.

Lemma load_ok env s :
  env !! "CELO_RPC" = Some s -> s <> EmptyString ->
  load toChain env =
    match toChain (chainJson_in env s) with
    | Normal c => Normal (all_exports (chainJson_in env s) c)
    | Throw e => Throw e
    end.
Proof.
  intros E Hs. unfold load, import_from, construct, bind.
  rewrite (make_chainJson_ok (initial env) s E Hs).
  unfold export_chainJson, set_exports, lift.
  destruct (toChain _) as [c|e]; reflexivity.
Qed.

(** Whether the environment holds a usable RPC endpoint. *)
Lemma rpc_cases env :
  truthy (env !! "CELO_RPC") = false
  \/ exists s, env !! "CELO_RPC" = Some s /\ s <> EmptyString.
Proof.
  destruct (truthy (env !! "CELO_RPC")) eqn:E.
  - right. now apply truthy_true.
  - now left.
Qed.

(** The import of the module is the construction from the environment
    that [dotenv.config()] leaves. *)
Lemma import_celo_load dotenv_file env :
  import_celo toChain dotenv_file env = load toChain (env ∪ dotenv_file).
Proof. reflexivity. Qed.

(** [dotenv.config()] is the only statement that writes to
    [process.env]. *)
Lemma celo_module_env dotenv_file env :
  process_env (snd (celo_module toChain dotenv_file (initial env)))
  = env ∪ dotenv_file.
Proof.
  unfold celo_module, bind, dotenv_config. cbn [fst snd process_env initial].
  set (st := mkState _ _).
  destruct (rpc_cases (process_env st)) as [H|(s & E & Hs)].
  - rewrite (construct_throw st H). reflexivity.
  - unfold construct, bind. rewrite (make_chainJson_ok st s E Hs).
    unfold export_chainJson, set_exports, lift.
    destruct (toChain _); reflexivity.
Qed.

End Steps.

(** ** The environment in effect *)

(** The value a variable has once [dotenv.config()] has run. *)
Lemma effective_lookup (env dotenv_file : Env) (k : string) :
  (env ∪ dotenv_file) !! k
  = match env !! k with
    | Some v => Some v
    | None => dotenv_file !! k
    end.
Proof.
  destruct (env !! k) as [v|] eqn:E.
  - now apply lookup_union_Some_l.
  - now apply lookup_union_r.
Qed.

Lemma load_two_keys {Chain : Type}
    (toChain : ChainJson -> outcome Chain) (env1 env2 : Env) :
  env1 !! "CELO_RPC" = env2 !! "CELO_RPC" ->
  env1 !! "CELO_DEPLOYER_KEY" = env2 !! "CELO_DEPLOYER_KEY" ->
  load toChain env1 = load toChain env2.
Proof.
  intros R K. destruct (rpc_cases env1) as [H|(s & E & Hs)].
  - rewrite (load_throw toChain env1 H).
    rewrite R in H. now rewrite (load_throw toChain env2 H).
  - rewrite (load_ok toChain env1 s E Hs).
    rewrite R in E. rewrite (load_ok toChain env2 s E Hs).
    unfold chainJson_in. now rewrite K.
Qed.




(** ** The RPC endpoint is required *)

(** C1: when [CELO_RPC] is unset or empty, construction fails with the
    missing-RPC error (the spec's [MissingRequiredField], thrown here as
    [Error('Missing RPC URI')]): the throw happens at once, before any
    export is made or [toChain] is consulted, and no default endpoint is
    substituted.  When [CELO_RPC] is set and non-empty, the guard passes,
    [chainJson] carries exactly that endpoint, and construction goes on
    to the call of [toChain] on it: it ends with all four exports when
    the call returns, and otherwise with the exception of the call.  The
    same holds for the import of the module, on the environment that
    [dotenv.config()] leaves. *)
Theorem rpc_endpoint_required {Chain : Type}
    (toChain : ChainJson -> outcome Chain) (env : Env) :
  (env !! "CELO_RPC" = None \/ env !! "CELO_RPC" = Some EmptyString ->
     construct toChain (initial env) = (Throw missing_rpc, initial env)
     /\ load toChain env = Throw missing_rpc)
  /\ (forall s, env !! "CELO_RPC" = Some s -> s <> EmptyString ->
     read_rpc (initial env) = (Normal s, @initial Chain env)
     /\ make_chainJson (initial env)
        = (Normal (chainJson_in env s), @initial Chain env)
     /\ rpc (chainJson_in env s) = s
     /\ load toChain env
        = match toChain (chainJson_in env s) with
          | Normal c => Normal (all_exports (chainJson_in env s) c)
          | Throw e => Throw e
          end
     /\ (forall c, toChain (chainJson_in env s) = Normal c ->
         construct toChain (initial env)
         = (Normal tt, mkState env (all_exports (chainJson_in env s) c))))
  /\ (forall dotenv_file,
     truthy ((env ∪ dotenv_file) !! "CELO_RPC") = false ->
     import_celo toChain dotenv_file env = Throw missing_rpc)
  /\ (forall dotenv_file s,
     (env ∪ dotenv_file) !! "CELO_RPC" = Some s -> s <> EmptyString ->
     import_celo toChain dotenv_file env
     = match toChain (chainJson_in (env ∪ dotenv_file) s) with
       | Normal c =>
           Normal (all_exports (chainJson_in (env ∪ dotenv_file) s) c)
       | Throw e => Throw e
       end).
Proof.
  split; [|split; [|split]].
  - intros H. apply truthy_false in H. split.
    + now apply construct_throw.
    + now apply load_throw.
  - intros s E Hs. split; [|split; [|split; [|split]]].
    + now apply read_rpc_ok.
    + now apply (make_chainJson_ok (initial env)).
    + reflexivity.
    + now apply load_ok.
    + intros c T. unfold construct, bind.
      rewrite (make_chainJson_ok (initial env) s E Hs).
      unfold export_chainJson, set_exports, lift.
      cbn [process_env exports initial]. rewrite T. reflexivity.
  - intros dotenv_file H. rewrite import_celo_load. now apply load_throw.
  - intros dotenv_file s E Hs. rewrite import_celo_load. now apply load_ok.
Qed.

Lemma rpc_endpoint_required_witness :
  load toChain_ok ∅ = Throw missing_rpc
  /\ read_rpc (initial celo_env) = (Normal forno, @initial ChainJson celo_env)
  /\ load toChain_ok celo_env
     = Normal (all_exports (chainJson_in celo_env forno)
                           (chainJson_in celo_env forno))
  /\ import_celo toChain_ok ∅ {[ "CELO_RPC" := EmptyString ]}
     = Throw missing_rpc
  /\ import_celo toChain_ok celo_env ∅
     = Normal (all_exports (chainJson_in celo_env forno)
                           (chainJson_in celo_env forno)).
Proof.
  split; [|split; [|split; [|split]]].
  - apply (rpc_endpoint_required toChain_ok ∅). left. reflexivity.
  - apply (rpc_endpoint_required toChain_ok celo_env).
    + reflexivity.
    + discriminate.
  - destruct (rpc_endpoint_required toChain_ok celo_env) as (_ & H & _).
    destruct (H forno) as (_ & _ & _ & L & _).
    + reflexivity.
    + discriminate.
    + exact L.
  - apply (rpc_endpoint_required toChain_ok {[ "CELO_RPC" := EmptyString ]}).
    reflexivity.
  - destruct (rpc_endpoint_required toChain_ok ∅) as (_ & _ & _ & H).
    etransitivity.
    + apply (H celo_env forno); [reflexivity | discriminate].
    + reflexivity.
Defined.

(** ** The deployer key is optional *)

(** C10: an unset [CELO_DEPLOYER_KEY] never aborts construction.  With
    a usable RPC endpoint and no deployer key, construction runs to its
    end, and the descriptor it exports carries an undefined
    [deployerKey]; construction, and likewise the import of the module,
    throws exactly when the RPC endpoint is falsy, whatever the deployer
    key, and what it throws is the missing-RPC error.  For the
    statements of [celo.ts] themselves this holds with any [toChain]:
    they throw exactly when the RPC endpoint is falsy, and construction
    as a whole throws exactly when the endpoint is falsy or the call of
    [toChain] throws. *)
Theorem deployer_key_optional (env : Env) :
  (env !! "CELO_DEPLOYER_KEY" = None ->
   forall s, env !! "CELO_RPC" = Some s -> s <> EmptyString ->
     construct toChain_spec (initial env)
     = (Normal tt,
        mkState env (all_exports (chainJson_literal s None)
                                 (chainJson_literal s None)))
     /\ load toChain_spec env
        = Normal (all_exports (chainJson_literal s None)
                              (chainJson_literal s None))
     /\ deployerKey (chainJson_literal s None) = None)
  /\ (is_throw (load toChain_spec env) = true
      <-> truthy (env !! "CELO_RPC") = false)
  /\ (forall e, load toChain_spec env = Throw e -> e = missing_rpc)
  /\ (forall dotenv_file,
        is_throw (import_celo toChain_spec dotenv_file env) = true
        <-> truthy ((env ∪ dotenv_file) !! "CELO_RPC") = false)
  /\ (forall (Chain : Type) (toChain : ChainJson -> outcome Chain),
        (env !! "CELO_DEPLOYER_KEY" = None ->
         forall s, env !! "CELO_RPC" = Some s -> s <> EmptyString ->
           make_chainJson (initial env)
           = (Normal (chainJson_literal s None), @initial Chain env))
        /\ (is_throw (fst (make_chainJson (@initial Chain env))) = true
            <-> truthy (env !! "CELO_RPC") = false)
        /\ (is_throw (load toChain env) = true
            <-> truthy (env !! "CELO_RPC") = false
                \/ exists s, env !! "CELO_RPC" = Some s /\ s <> EmptyString
                     /\ is_throw (toChain (chainJson_in env s)) = true)).
Proof.
  assert (forall env' : Env,
            is_throw (load toChain_spec env') = true
            <-> truthy (env' !! "CELO_RPC") = false) as Hspec.
  { intros env'. destruct (rpc_cases env') as [H|(s & E & Hs)].
    - rewrite (load_throw toChain_spec env' H). now split.
    - rewrite (load_ok toChain_spec env' s E Hs).
      assert (truthy (env' !! "CELO_RPC") = true) as ->
        by (apply truthy_true; eauto).
      split; discriminate. }
  split; [|split; [|split; [|split]]].
  - intros K s E Hs.
    assert (chainJson_in env s = chainJson_literal s None) as C
      by (unfold chainJson_in; now rewrite K).
    split; [|split].
    + unfold construct, bind.
      rewrite (make_chainJson_ok (initial env) s E Hs).
      cbn [process_env initial]. rewrite C. reflexivity.
    + rewrite (load_ok toChain_spec env s E Hs), C. reflexivity.
    + reflexivity.
  - apply Hspec.
  - intros e. destruct (rpc_cases env) as [H|(s & E & Hs)].
    + rewrite (load_throw toChain_spec env H). now intros [= <-].
    + rewrite (load_ok toChain_spec env s E Hs). discriminate.
  - intros dotenv_file. rewrite import_celo_load. apply Hspec.
  - intros Chain toChain. split; [|split].
    + intros K s E Hs.
      rewrite (make_chainJson_ok (initial env) s E Hs).
      unfold chainJson_in. cbn [process_env initial]. now rewrite K.
    + destruct (rpc_cases env) as [H|(s & E & Hs)].
      * rewrite (make_chainJson_throw (initial env) H). now split.
      * rewrite (make_chainJson_ok (initial env) s E Hs).
        assert (truthy (env !! "CELO_RPC") = true) as ->
          by (apply truthy_true; eauto).
        split; discriminate.
    + destruct (rpc_cases env) as [H|(s & E & Hs)].
      * rewrite (load_throw toChain env H). split; [now left | reflexivity].
      * rewrite (load_ok toChain env s E Hs). split.
        -- intros T. right. exists s. repeat split; try assumption.
           destruct (toChain _); [discriminate T | reflexivity].
        -- intros [F|(s' & E' & _ & T)].
           ++ apply truthy_false in F. destruct F; congruence.
           ++ assert (s' = s) as -> by congruence.
              destruct (toChain _); [discriminate T | reflexivity].
Qed.

Lemma deployer_key_optional_witness :
  load toChain_spec celo_env
  = Normal (all_exports (chainJson_literal forno None)
                        (chainJson_literal forno None))
  /\ load toChain_spec (<[ "CELO_DEPLOYER_KEY" := "k1" ]> ∅)
     = Throw missing_rpc.
Proof.
  split.
  - destruct (deployer_key_optional celo_env) as (H & _).
    destruct (H eq_refl forno) as (_ & L & _).
    + reflexivity.
    + discriminate.
    + exact L.
  - destruct (deployer_key_optional (<[ "CELO_DEPLOYER_KEY" := "k1" ]> ∅))
      as (_ & _ & H & _).
    destruct (load toChain_spec (<[ "CELO_DEPLOYER_KEY" := "k1" ]> ∅))
      as [ex|e] eqn:L.
    + discriminate L.
    + now rewrite (H e eq_refl).
Defined.

(** ** All or nothing *)

(** C6: an import of the module either yields all four exports, built
    from a non-empty RPC endpoint on which [toChain] returned, or it
    throws and yields no export at all; a throw of the RPC guard leaves
    even the module's own bindings untouched. *)
Theorem all_or_nothing {Chain : Type}
    (toChain : ChainJson -> outcome Chain) (dotenv_file env : Env) :
  ((exists s c,
      (env ∪ dotenv_file) !! "CELO_RPC" = Some s /\ s <> EmptyString
      /\ toChain (chainJson_in (env ∪ dotenv_file) s) = Normal c
      /\ import_celo toChain dotenv_file env
         = Normal (all_exports (chainJson_in (env ∪ dotenv_file) s) c))
   \/ (exists e, import_celo toChain dotenv_file env = Throw e))
  /\ (forall ex, import_celo toChain dotenv_file env = Normal ex ->
        is_Some (exp_chainJson ex) /\ is_Some (exp_chain ex)
        /\ exp_config ex = Some config
        /\ exp_bridgeConfig ex = Some bridgeConfig)
  /\ (truthy ((env ∪ dotenv_file) !! "CELO_RPC") = false ->
        exports (snd (celo_module toChain dotenv_file (initial env)))
        = no_exports).
Proof.
  rewrite import_celo_load.
  destruct (rpc_cases (env ∪ dotenv_file)) as [H|(s & E & Hs)].
  - rewrite (load_throw toChain _ H). split; [|split].
    + right. now exists missing_rpc.
    + discriminate.
    + intros _. unfold celo_module, bind, dotenv_config.
      cbn [process_env exports initial].
      rewrite construct_throw; [reflexivity | exact H].
  - rewrite (load_ok toChain _ s E Hs). split; [|split].
    + destruct (toChain _) as [c|e] eqn:T.
      * left. exists s, c. now rewrite T.
      * right. now exists e.
    + intros ex. destruct (toChain _) as [c|e]; [|discriminate].
      intros [= <-]. cbn. repeat split; eauto.
    + intros F. apply truthy_false in F. destruct F; congruence.
Qed.

Lemma all_or_nothing_witness :
  (is_Some (exp_chainJson (all_exports (chainJson_in celo_env forno)
                                       (chainJson_in celo_env forno)))
   /\ is_Some (exp_chain (all_exports (chainJson_in celo_env forno)
                                      (chainJson_in celo_env forno)))
   /\ exp_config (all_exports (chainJson_in celo_env forno)
                              (chainJson_in celo_env forno)) = Some config
   /\ exp_bridgeConfig (all_exports (chainJson_in celo_env forno)
                                    (chainJson_in celo_env forno))
      = Some bridgeConfig)
  /\ exports (snd (celo_module toChain_ok ∅ (initial ∅))) = no_exports.
Proof.
  split.
  - apply (all_or_nothing toChain_ok ∅ celo_env). reflexivity.
  - apply (all_or_nothing toChain_ok ∅ ∅). reflexivity.
Defined.

(** ** How a failure reaches the caller *)

(** C5, as stated, does not hold: with no [CELO_RPC] the failure is a
    thrown exception, so it is false that construction never throws and
    always hands back a value. *)
Lemma failure_is_thrown :
  load toChain_ok ∅ = Throw missing_rpc
  /\ ~ (forall env : Env, is_throw (load toChain_ok env) = false).
Proof.
  split; [reflexivity|].
  intros H. specialize (H ∅). discriminate H.
Qed.

(** C5 (amended): the one validation error of the module, the missing
    RPC endpoint, is detected when the module is evaluated and reaches
    the caller synchronously as a thrown [Error('Missing RPC URI')]; it
    is raised by the first check, with nothing exported and the
    environment as it was; any other exception comes from [toChain]; and
    a value is returned only when the check passed, so no failure report
    is ever returned. *)
Theorem failure_surfaces_as_throw {Chain : Type}
    (toChain : ChainJson -> outcome Chain) (env : Env) :
  (truthy (env !! "CELO_RPC") = false ->
     construct toChain (initial env) = (Throw missing_rpc, initial env))
  /\ (forall e, load toChain env = Throw e ->
        (e = missing_rpc /\ truthy (env !! "CELO_RPC") = false)
        \/ exists s, env !! "CELO_RPC" = Some s /\ s <> EmptyString
             /\ toChain (chainJson_in env s) = Throw e)
  /\ (forall ex, load toChain env = Normal ex ->
        truthy (env !! "CELO_RPC") = true).
Proof.
  split; [|split].
  - intros H. exact (construct_throw toChain (initial env) H).
  - intros e. destruct (rpc_cases env) as [H|(s & E & Hs)].
    + rewrite (load_throw toChain env H). intros [= <-]. now left.
    + rewrite (load_ok toChain env s E Hs).
      destruct (toChain _) as [c|e'] eqn:T; [discriminate|].
      intros [= <-]. right. now exists s.
  - intros ex. destruct (rpc_cases env) as [H|(s & E & Hs)].
    + rewrite (load_throw toChain env H). discriminate.
    + intros _. apply truthy_true. eauto.
Qed.

Lemma failure_surfaces_as_throw_witness :
  construct toChain_ok (initial ∅) = (Throw missing_rpc, initial ∅)
  /\ truthy (celo_env !! "CELO_RPC") = true.
Proof.
  split.
  - apply (failure_surfaces_as_throw toChain_ok ∅). reflexivity.
  - destruct (failure_surfaces_as_throw toChain_ok celo_env) as (_ & _ & H).
    apply (H (all_exports (chainJson_in celo_env forno)
                          (chainJson_in celo_env forno))).
    reflexivity.
Defined.

(** ** Determinism and effects *)




(** ** The domain constant *)

Lemma tag_to_domain_celo : tag_to_domain "celo" = celo_domain.
Proof. reflexivity. Qed.

(** The comment beside the constant names the tag [eth]; the constant is
    the integer of [celo], not of [eth]. *)
Remark tag_to_domain_eth : tag_to_domain "eth" <> celo_domain.
Proof. discriminate. Qed.

Lemma fold_tag_bounds (l : list ascii) (acc : Z) :
  0 <= acc ->
  0 <= fold_left (fun a c => a * 256 + Z.of_nat (nat_of_ascii c)) l acc
    < (acc + 1) * 256 ^ Z.of_nat (List.length l).
Proof.
  revert acc. induction l as [|c l IH]; intros acc Hacc.
  - cbn [fold_left List.length]. change (256 ^ Z.of_nat 0) with 1. lia.
  - cbn [fold_left List.length].
    pose proof (nat_ascii_bounded c) as Hc.
    assert (0 <= Z.of_nat (nat_of_ascii c) < 256) as Hb by lia.
    specialize (IH (acc * 256 + Z.of_nat (nat_of_ascii c))).
    destruct IH as [IH1 IH2]; [lia|].
    split; [exact IH1|].
    rewrite Nat2Z.inj_succ, Z.pow_succ_r by lia.
    assert (0 < 256 ^ Z.of_nat (List.length l)) by (apply Z.pow_pos_nonneg; lia).
    nia.
Qed.

(** A tag of at most four bytes gives an unsigned 32-bit domain. *)
Lemma tag_to_domain_32 (tag : string) :
  (String.length tag <= 4)%nat -> 0 <= tag_to_domain tag < 2 ^ 32.
Proof.
  intros H. unfold tag_to_domain.
  pose proof (fold_tag_bounds (list_ascii_of_string tag) 0 (Z.le_refl 0))
    as [B1 B2].
  assert (List.length (list_ascii_of_string tag) = String.length tag) as L.
  { clear. induction tag as [|c t IH]; cbn; [reflexivity | now rewrite IH]. }
  rewrite L in B2. split; [exact B1|].
  eapply Z.lt_le_trans; [exact B2|].
  change ((0 + 1) * 256 ^ Z.of_nat (String.length tag))
    with (1 * 256 ^ Z.of_nat (String.length tag)).
  rewrite Z.mul_1_l. change (2 ^ 32) with (256 ^ 4).
  apply Z.pow_le_mono_r; lia.
Qed.

(** ** Validation rules on the constants *)

Lemma validate_invalid (cfg : CoreConfig) (v : Violation) :
  In v (violations cfg) ->
  exists report, validateCoreConfig cfg = Invalid report /\ In v report.
Proof.
  unfold validateCoreConfig. destruct (violations cfg) as [|v0 vs].
  - intros [].
  - intros H. now exists (v0 :: vs).
Qed.

Lemma has_duplicate_spec (ws : list string) :
  has_duplicate ws = true <-> ~ NoDup ws.
Proof.
  induction ws as [|w ws IH]; cbn [has_duplicate].
  - split; [discriminate | intros H; destruct H; constructor].
  - rewrite orb_true_iff, IH, existsb_exists. split.
    + intros [(x & Hin & Heq)|H] Hnd; inversion Hnd as [|? ? Hw Hws]; subst.
      * apply String.eqb_eq in Heq. subst x.
        apply Hw. now apply list_elem_of_In.
      * now apply H.
    + intros H. destruct (in_dec string_dec w ws) as [Hin|Hnin].
      * left. exists w. split; [exact Hin | apply String.eqb_refl].
      * right. intros Hws. apply H. constructor; [|exact Hws].
        intros Hw. apply Hnin. now apply list_elem_of_In.
Qed.

Lemma check_watchers_duplicate (ws : list string) :
  ~ NoDup ws ->
  In (mkViolation DuplicateWatcher "watchers") (check_watchers ws).
Proof.
  intros H. apply has_duplicate_spec in H. unfold check_watchers.
  rewrite H. apply in_or_app. right. now left.
Qed.

Lemma check_watchers_kind (ws : list string) (v : Violation) :
  In v (check_watchers ws) ->
  kind v = InvalidAddress \/ kind v = DuplicateWatcher.
Proof.
  unfold check_watchers. intros H. apply in_app_or in H as [H|H].
  - apply in_flat_map in H as (w & _ & H).
    destruct (is_address w); [destruct H|].
    destruct H as [<-|[]]. now left.
  - destruct (has_duplicate ws); [|destruct H].
    destruct H as [<-|[]]. now right.
Qed.

Lemma check_address_kind (f a : string) (v : Violation) :
  In v (check_address f a) ->
  kind v = MissingRequiredField \/ kind v = InvalidAddress.
Proof.
  unfold check_address. destruct (String.eqb a EmptyString).
  - intros [<-|[]]. now left.
  - destruct (is_address a); [intros [] | intros [<-|[]]; now right].
Qed.

Lemma check_gas_kind (cfg : CoreConfig) (v : Violation) :
  In v (check_gas cfg) -> kind v = InvalidGasBudget.
Proof.
  unfold check_gas. intros H. apply in_app_or in H as [H|H].
  - destruct (processGas cfg <=? 0)%Z; [|destruct H].
    now destruct H as [<-|[]].
  - destruct (reserveGas cfg <? 0)%Z; [|destruct H].
    now destruct H as [<-|[]].
Qed.

Lemma check_duration_pass (f : string) (d : Z) :
  0 <= d -> check_duration f d = [].
Proof.
  intros H. unfold check_duration.
  destruct (Z.ltb_spec d 0); [lia | reflexivity].
Qed.

Lemma check_duration_fail (f : string) (d : Z) :
  d < 0 -> check_duration f d = [mkViolation InvalidDuration f].
Proof.
  intros H. unfold check_duration.
  destruct (Z.ltb_spec d 0); [reflexivity | lia].
Qed.

(** ** The Celo scenario *)

(** C2: with [CELO_RPC] set to the Celo endpoint, the module builds a
    [chainJson] named [celo] with that endpoint and with domain
    0x63656c6f, the big-endian integer of the ASCII tag [celo]; the
    composite holds it together with [config] and [bridgeConfig] (once
    [toChain] has returned); [config] carries the values of the scenario
    and every one of its fields passes the validation rules: well-formed
    updater, recovery manager and watchers, no repeated watcher,
    non-negative durations, positive process gas, non-negative reserve
    gas. *)
Theorem celo_scenario {Chain : Type}
    (toChain : ChainJson -> outcome Chain) (env : Env) :
  env !! "CELO_RPC" = Some "https://forno.celo.org" ->
  make_chainJson (initial env)
  = (Normal (chainJson_in env "https://forno.celo.org"), @initial Chain env)
  /\ load toChain env
     = match toChain (chainJson_in env "https://forno.celo.org") with
       | Normal c =>
           Normal (all_exports (chainJson_in env "https://forno.celo.org") c)
       | Throw e => Throw e
       end
  /\ name (chainJson_in env "https://forno.celo.org") = "celo"
  /\ rpc (chainJson_in env "https://forno.celo.org") = "https://forno.celo.org"
  /\ domain (chainJson_in env "https://forno.celo.org") = tag_to_domain "celo"
  /\ domain (chainJson_in env "https://forno.celo.org") = 0x63656c6f
  /\ config
     = mkCoreConfig "prod" "0xDB2091535eb0Ee447Ce170DDC25204FEA822dd81"
         86400 "0x3D9330014952Bf0A3863FEB7a657bfFA5C9D40B9" 10800
         ["0xeE42B7757798cf495CDaA8eDb0CC237F07c60C81"] None 850000 15000
  /\ is_address (updater config) = true
  /\ is_address (recoveryManager config) = true
  /\ 0 <= recoveryTimelock config
  /\ 0 <= optimisticSeconds config
  /\ Forall (fun w => is_address w = true) (watchers config)
  /\ NoDup (watchers config)
  /\ 0 < processGas config
  /\ 0 <= reserveGas config
  /\ validateCoreConfig config = Valid config.
Proof.
  intros E.
  assert ("https://forno.celo.org" <> EmptyString) as Hs by discriminate.
  split; [exact (make_chainJson_ok (initial env) _ E Hs)|].
  split; [exact (load_ok toChain env _ E Hs)|].
  do 7 (split; [reflexivity|]).
  split; [cbn; lia|]. split; [cbn; lia|].
  split; [repeat constructor|].
  split; [repeat constructor; intros H; inversion H|].
  split; [cbn; lia|]. split; [cbn; lia|].
  reflexivity.
Qed.

Lemma celo_scenario_witness :
  load toChain_ok celo_env
  = Normal (all_exports (chainJson_in celo_env "https://forno.celo.org")
                        (chainJson_in celo_env "https://forno.celo.org"))
  /\ domain (chainJson_in celo_env "https://forno.celo.org") = 0x63656c6f.
Proof.
  destruct (celo_scenario toChain_ok celo_env) as (_ & L & _ & _ & _ & D & _).
  - reflexivity.
  - split; [exact L | exact D].
Defined.

(** ** Watchers *)

(** C3: for well-formed addresses [a] and [b] with [a <> b], the watcher
    list [a, b] passes the watcher check; the list [a, a], and every
    list with a repeated address, is reported with a [DuplicateWatcher]
    violation, which makes validation of the configuration that holds it
    fail.  The watcher list of [config] passes. *)
Theorem watcher_uniqueness (a b : string) (ws : list string) :
  (is_address a = true -> is_address b = true -> a <> b ->
     check_watchers [a; b] = [])
  /\ In (mkViolation DuplicateWatcher "watchers") (check_watchers [a; a])
  /\ (~ NoDup ws ->
      In (mkViolation DuplicateWatcher "watchers") (check_watchers ws))
  /\ (forall cfg, ~ NoDup (watchers cfg) ->
      exists report,
        validateCoreConfig cfg = Invalid report
        /\ In (mkViolation DuplicateWatcher "watchers") report)
  /\ check_watchers (watchers config) = [].
Proof.
  split; [|split; [|split; [|split]]].
  - intros Ha Hb Hab. unfold check_watchers.
    cbn [flat_map has_duplicate existsb]. rewrite Ha, Hb.
    apply String.eqb_neq in Hab. rewrite Hab. reflexivity.
  - apply check_watchers_duplicate. intros H.
    inversion H as [|? ? Hnin _]; subst. apply Hnin. now left.
  - apply check_watchers_duplicate.
  - intros cfg H. apply validate_invalid. unfold violations.
    do 4 (apply in_or_app; right). apply in_or_app; left.
    now apply check_watchers_duplicate.
  - reflexivity.
Qed.

Lemma watcher_uniqueness_witness :
  check_watchers [updater config; recoveryManager config] = []
  /\ In (mkViolation DuplicateWatcher "watchers")
        (check_watchers [updater config; "0x00"; updater config]).
Proof.
  destruct (watcher_uniqueness (updater config) (recoveryManager config)
              [updater config; "0x00"; updater config]) as (P & _ & D & _).
  split.
  - apply P; [reflexivity | reflexivity | discriminate].
  - apply D. intros H. inversion H as [|? ? Hnin _]; subst.
    apply Hnin. right. left.
Defined.

(** ** Durations *)

(** C4: a negative [recoveryTimelock] and a negative [optimisticSeconds]
    each make validation fail with an [InvalidDuration] violation naming
    the field; a value that is zero or more passes the duration check,
    and with both durations non-negative no [InvalidDuration] violation
    is reported.  The durations of [config] pass. *)
Theorem duration_check (cfg : CoreConfig) :
  (recoveryTimelock cfg < 0 ->
     exists report,
       validateCoreConfig cfg = Invalid report
       /\ In (mkViolation InvalidDuration "recoveryTimelock") report)
  /\ (optimisticSeconds cfg < 0 ->
     exists report,
       validateCoreConfig cfg = Invalid report
       /\ In (mkViolation InvalidDuration "optimisticSeconds") report)
  /\ (forall f d, 0 <= d -> check_duration f d = [])
  /\ (0 <= recoveryTimelock cfg -> 0 <= optimisticSeconds cfg ->
      forall v, In v (violations cfg) -> kind v <> InvalidDuration)
  /\ check_duration "recoveryTimelock" (recoveryTimelock config) = []
  /\ check_duration "optimisticSeconds" (optimisticSeconds config) = [].
Proof.
  split; [|split; [|split; [|split; [|split]]]].
  - intros H. apply validate_invalid. unfold violations.
    do 2 (apply in_or_app; right). apply in_or_app; left.
    rewrite (check_duration_fail _ _ H). now left.
  - intros H. apply validate_invalid. unfold violations.
    do 3 (apply in_or_app; right). apply in_or_app; left.
    rewrite (check_duration_fail _ _ H). now left.
  - apply check_duration_pass.
  - intros H1 H2 v. unfold violations.
    rewrite (check_duration_pass _ _ H1), (check_duration_pass _ _ H2).
    cbn [app]. rewrite !in_app_iff.
    intros [H|[H|[H|H]]].
    + apply check_address_kind in H as [-> | ->]; discriminate.
    + apply check_address_kind in H as [-> | ->]; discriminate.
    + apply check_watchers_kind in H as [-> | ->]; discriminate.
    + apply check_gas_kind in H as ->. discriminate.
  - reflexivity.
  - reflexivity.
Qed.

Lemma duration_check_witness :
  (exists report,
     validateCoreConfig
       (mkCoreConfig "prod" (updater config) (-1) (recoveryManager config)
          10800 (watchers config) None 850000 15000) = Invalid report
     /\ In (mkViolation InvalidDuration "recoveryTimelock") report)
  /\ (forall v, In v (violations config) -> kind v <> InvalidDuration).
Proof.
  split.
  - apply (duration_check
             (mkCoreConfig "prod" (updater config) (-1)
                (recoveryManager config) 10800 (watchers config) None
                850000 15000)).
    cbn. lia.
  - apply (duration_check config); cbn; lia.
Defined.

(** * Further properties of the module *)

(** ** What [toChain] is called on *)

(** The module calls [toChain] at most once, and only on a descriptor
    named [celo], of domain 0x63656c6f, with a non-empty endpoint: two
    implementations of [toChain] that agree on such descriptors give the
    same outcome of construction, whatever they do elsewhere. *)
Theorem toChain_argument_shape {Chain : Type}
    (toChain1 toChain2 : ChainJson -> outcome Chain) (env : Env) :
  (forall cj, name cj = "celo" -> domain cj = 0x63656c6f ->
              rpc cj <> EmptyString -> toChain1 cj = toChain2 cj) ->
  load toChain1 env = load toChain2 env.
Proof.
  intros H. destruct (rpc_cases env) as [F|(s & E & Hs)].
  - now rewrite (load_throw toChain1 env F), (load_throw toChain2 env F).
  - rewrite (load_ok toChain1 env s E Hs), (load_ok toChain2 env s E Hs).
    rewrite (H (chainJson_in env s)); [reflexivity | reflexivity
                                      | reflexivity | exact Hs].
Qed.

Lemma toChain_argument_shape_witness :
  load toChain_ok celo_env = load toChain_strict celo_env.
Proof.
  apply (toChain_argument_shape toChain_ok toChain_strict celo_env).
  intros cj _ _ Hs. unfold toChain_ok, toChain_strict.
  apply String.eqb_neq in Hs. rewrite Hs. reflexivity.
Defined.

(** ** A throw of [toChain] *)

(** When the endpoint is usable and [toChain] throws, the module throws
    the very same exception; at that point [chainJson] is the only
    binding initialised: [config] and [bridgeConfig], although constants,
    come after the call and are never reached, and the environment is as
    it was. *)
Theorem toChain_failure_propagates {Chain : Type}
    (toChain : ChainJson -> outcome Chain) (env : Env) (s : string)
    (e : exn) :
  env !! "CELO_RPC" = Some s -> s <> EmptyString ->
  toChain (chainJson_in env s) = Throw e ->
  construct toChain (initial env)
  = (Throw e,
     mkState env (mkExports (Some (chainJson_in env s)) None None None))
  /\ load toChain env = Throw e.
Proof.
  intros E Hs T. split.
  - unfold construct, bind.
    rewrite (make_chainJson_ok (initial env) s E Hs).
    unfold export_chainJson, set_exports, lift.
    cbn [process_env exports initial]. rewrite T. reflexivity.
  - rewrite (load_ok toChain env s E Hs), T. reflexivity.
Qed.

Lemma toChain_failure_propagates_witness :
  construct toChain_failing (initial celo_env)
  = (Throw (Error "toChain failed"),
     mkState celo_env
       (mkExports (Some (chainJson_in celo_env forno)) None None None))
  /\ load toChain_failing celo_env = Throw (Error "toChain failed").
Proof.
  apply (toChain_failure_propagates toChain_failing celo_env forno).
  - reflexivity.
  - discriminate.
  - reflexivity.
Defined.

(** ** The [.env] file and the process environment *)

(** A [CELO_RPC] that the process environment lacks is taken from the
    [.env] file: with a non-empty endpoint there, the import passes the
    guard, and the descriptor carries that endpoint and the deployer key
    of the process environment or, failing that, of the file. *)
Theorem dotenv_supplies_rpc {Chain : Type}
    (toChain : ChainJson -> outcome Chain) (dotenv_file env : Env)
    (s : string) :
  env !! "CELO_RPC" = None ->
  dotenv_file !! "CELO_RPC" = Some s -> s <> EmptyString ->
  import_celo toChain dotenv_file env
  = match toChain (chainJson_literal s
                     (match env !! "CELO_DEPLOYER_KEY" with
                      | Some k => Some k
                      | None => dotenv_file !! "CELO_DEPLOYER_KEY"
                      end)) with
    | Normal c =>
        Normal (all_exports
                  (chainJson_literal s
                     (match env !! "CELO_DEPLOYER_KEY" with
                      | Some k => Some k
                      | None => dotenv_file !! "CELO_DEPLOYER_KEY"
                      end)) c)
    | Throw e => Throw e
    end.
Proof.
  intros N F Hs. rewrite import_celo_load.
  assert ((env ∪ dotenv_file) !! "CELO_RPC" = Some s) as E
    by (now rewrite effective_lookup, N).
  rewrite (load_ok toChain _ s E Hs). unfold chainJson_in.
  now rewrite effective_lookup.
Qed.

Lemma dotenv_supplies_rpc_witness :
  import_celo toChain_ok
    {[ "CELO_RPC" := forno; "CELO_DEPLOYER_KEY" := "k1" ]} ∅
  = Normal (all_exports (chainJson_literal forno (Some "k1"))
                        (chainJson_literal forno (Some "k1"))).
Proof.
  etransitivity.
  - apply (dotenv_supplies_rpc toChain_ok
             {[ "CELO_RPC" := forno; "CELO_DEPLOYER_KEY" := "k1" ]} ∅ forno).
    + reflexivity.
    + reflexivity.
    + discriminate.
  - reflexivity.
Defined.

(** Variables set in the process environment win over the [.env] file:
    when [CELO_RPC] and [CELO_DEPLOYER_KEY] are both set there, the
    outcome of the import is the same for every [.env] file; and a
    [CELO_RPC] set to the empty string makes the import throw the
    missing-RPC error even when the file holds an endpoint. *)
Theorem process_env_takes_precedence {Chain : Type}
    (toChain : ChainJson -> outcome Chain) (file1 file2 env : Env) :
  (is_Some (env !! "CELO_RPC") -> is_Some (env !! "CELO_DEPLOYER_KEY") ->
   import_celo toChain file1 env = import_celo toChain file2 env)
  /\ (env !! "CELO_RPC" = Some EmptyString ->
      import_celo toChain file1 env = Throw missing_rpc).
Proof.
  split.
  - intros [r R] [k K]. rewrite !import_celo_load.
    apply load_two_keys; rewrite !effective_lookup.
    + now rewrite R.
    + now rewrite K.
  - intros R. rewrite import_celo_load. apply load_throw.
    rewrite effective_lookup, R. reflexivity.
Qed.

Lemma process_env_takes_precedence_witness :
  import_celo toChain_ok {[ "CELO_RPC" := "http://localhost:8545" ]}
    (<[ "CELO_DEPLOYER_KEY" := "k1" ]> celo_env)
  = import_celo toChain_ok ∅ (<[ "CELO_DEPLOYER_KEY" := "k1" ]> celo_env)
  /\ import_celo toChain_ok {[ "CELO_RPC" := forno ]}
       {[ "CELO_RPC" := EmptyString ]}
     = Throw missing_rpc.
Proof.
  split.
  - apply (process_env_takes_precedence toChain_ok
             {[ "CELO_RPC" := "http://localhost:8545" ]} ∅
             (<[ "CELO_DEPLOYER_KEY" := "k1" ]> celo_env)).
    + eexists. reflexivity.
    + eexists. reflexivity.
  - apply (process_env_takes_precedence toChain_ok
             {[ "CELO_RPC" := forno ]} ∅ {[ "CELO_RPC" := EmptyString ]}).
    reflexivity.
Defined.

(** Evaluating the module extends [process.env] and never changes a
    variable that was set: afterwards every variable has its former
    value if it had one, and otherwise the value of the [.env] file.
    This holds whether the module threw or not: a throw does not undo
    what [dotenv.config()] added. *)
Theorem import_extends_env {Chain : Type}
    (toChain : ChainJson -> outcome Chain) (dotenv_file env : Env)
    (k : string) :
  process_env (snd (celo_module toChain dotenv_file (initial env))) !! k
  = match env !! k with
    | Some v => Some v
    | None => dotenv_file !! k
    end.
Proof.
  rewrite celo_module_env. apply effective_lookup.
Qed.

(** Evaluating the module a second time, in the environment the first
    evaluation left, gives the same outcome as the first and leaves that
    environment as it is. *)
Theorem reimport_idempotent {Chain : Type}
    (toChain : ChainJson -> outcome Chain) (dotenv_file env : Env) :
  import_celo toChain dotenv_file
    (process_env (snd (celo_module toChain dotenv_file (initial env))))
  = import_celo toChain dotenv_file env
  /\ process_env
       (snd (celo_module toChain dotenv_file
               (initial (process_env
                  (snd (celo_module toChain dotenv_file (initial env)))))))
     = process_env (snd (celo_module toChain dotenv_file (initial env))).
Proof.
  rewrite !celo_module_env, !import_celo_load.
  assert (env ∪ dotenv_file ∪ dotenv_file = env ∪ dotenv_file) as ->.
  { rewrite <- (assoc_L (∪)). now rewrite (idemp_L (∪) dotenv_file). }
  split; reflexivity.
Qed.
